(** * openage: the AoC name tables

    A shallow embedding of
    - [openage/convert/dataformat/aoc/internal_nyan_names.py]: five
      module-level dict displays from line ids to nyan object names;
    - [openage/convert/processor/__init__.py]: a package docstring and
      nothing else; it holds no statement to embed.

    Python integers are modelled as [Z], Python strings as [string], a
    Python dict with integer keys as a [gmap Z string]. *)

From Stdlib Require Import ZArith Ascii String.
From stdpp Require Import gmap strings list fin_maps sorting.

Local Open Scope string_scope.
Local Open Scope Z_scope.

(** ** Python dictionaries *)

Module Py.

(** A dict display [{k1: v1, ..., kn: vn}] is evaluated from left to
    right; an item whose key is already present replaces the stored
    value. *)
Definition dict_display (items : list (Z * string)) : gmap Z string :=
  foldl (λ d kv, <[kv.1 := kv.2]> d) ∅ items.

(** [len(d)] *)
Definition len (d : gmap Z string) : Z := Z.of_nat (size d).

(** The subscription [d[key]]: the stored value, or [KeyError]. *)
Inductive subscript_result : Type :=
| Value (v : string)
| KeyError (key : Z).

Definition getitem (d : gmap Z string) (key : Z) : subscript_result :=
  match d !! key with
  | Some v => Value v
  | None => KeyError key
  end.



End Py.

(** ** internal_nyan_names.py *)

(** The items of the five displays, in source order. *)
Definition unit_line_items : list (Z * string) :=
  [ (3, "FishingShip");
    (4, "Swordsman");
    (22, "Archer");
    (23, "TradeCog");
    (24, "Spearman");
    (26, "Galley");
    (27, "TradeCart");
    (28, "Skirmisher");
    (29, "TransportShip");
    (49, "Ram");
    (50, "Cataphract");
    (51, "ChoKoNu");
    (52, "Conquistador");
    (53, "CamelRider");
    (54, "HorseArcher");
    (55, "Mameluke");
    (56, "EagleWarrior");
    (57, "FireTrireme");
    (58, "Huscarl");
    (59, "JaguarWarrior");
    (60, "Janissary");
    (61, "Knight");
    (62, "Longboat");
    (63, "Longbowman");
    (64, "Mangonel");
    (66, "Missionary");
    (67, "Mangudai");
    (68, "WarElephant");
    (69, "Petard");
    (70, "PlumedArcher");
    (71, "DemolitionShip");
    (72, "Scorpion");
    (73, "Samurai");
    (74, "Tarkan");
    (75, "ThrowingAxeman");
    (76, "TeutonicKnight");
    (77, "TurtleShip");
    (78, "Berserk");
    (79, "WarWaggon");
    (80, "WoadRaider");
    (113, "BombardCannon");
    (114, "CannonGalleon");
    (115, "HandCannoneer") ].

Definition building_line_items : list (Z * string) :=
  [ (12, "Barracks");
    (45, "Harbor");
    (49, "SiegeWorkshop");
    (50, "Farm");
    (68, "Mill");
    (70, "House");
    (72, "PalisadeWall");
    (79, "Tower");
    (82, "Castle");
    (84, "Market");
    (87, "ArcheryRange");
    (101, "Stable");
    (103, "Blacksmith");
    (104, "Monastery");
    (117, "StoneWall");
    (199, "FishingTrap");
    (209, "University");
    (236, "BombardTower");
    (276, "Wonder");
    (487, "StoneGate");
    (562, "LumberCamp");
    (584, "MiningCamp");
    (598, "Outpost") ].

Definition transform_group_items : list (Z * string) :=
  [ (116, "Trebuchet") ].

Definition villager_group_items : list (Z * string) :=
  [ (5, "Villager") ].

Definition monk_group_items : list (Z * string) :=
  [ (65, "Monk") ].

(** The module-level names bound by the five assignments. *)
Definition unit_line_lookups : gmap Z string :=
  Py.dict_display unit_line_items.

Definition building_line_lookups : gmap Z string :=
  Py.dict_display building_line_items.

Definition transform_group_lookups : gmap Z string :=
  Py.dict_display transform_group_items.

Definition villager_group_lookups : gmap Z string :=
  Py.dict_display villager_group_items.

Definition monk_group_lookups : gmap Z string :=
  Py.dict_display monk_group_items.

(** The five categories of tables. *)
Inductive Category : Type :=
| Unit
| Building
| TransformGroup
| VillagerGroup
| MonkGroup.

(** The display that the source writes for a category. *)
Definition items_of (c : Category) : list (Z * string) :=
  match c with
  | Unit => unit_line_items
  | Building => building_line_items
  | TransformGroup => transform_group_items
  | VillagerGroup => villager_group_items
  | MonkGroup => monk_group_items
  end.

(** The state of the module: the five dict objects its names are bound
    to.  Python dicts are mutable objects, so the state is threaded
    through every operation that receives it. *)
Record Registry : Type := mkRegistry {
  reg_unit_line : gmap Z string;
  reg_building_line : gmap Z string;
  reg_transform_group : gmap Z string;
  reg_villager_group : gmap Z string;
  reg_monk_group : gmap Z string;
}.

(** The state right after the module body has run. *)
Definition internal_nyan_names : Registry :=
  {| reg_unit_line := unit_line_lookups;
     reg_building_line := building_line_lookups;
     reg_transform_group := transform_group_lookups;
     reg_villager_group := villager_group_lookups;
     reg_monk_group := monk_group_lookups |}.

Definition table_of (c : Category) (reg : Registry) : gmap Z string :=
  match c with
  | Unit => reg_unit_line reg
  | Building => reg_building_line reg
  | TransformGroup => reg_transform_group reg
  | VillagerGroup => reg_villager_group reg
  | MonkGroup => reg_monk_group reg
  end.

(** *** The registry's accessor *)

Inductive LookupResult : Type :=
| Found (name : string)
| NotFoundError.

(** Modelled from the spec: the accessor [lookup(category, key)] is not
    defined in the source file, which only binds the five tables.  It
    is the subscription of the category's table by the key, with the
    [KeyError] of a miss reported as the spec's [NotFoundError].  It
    receives the module state and hands it back. *)
Definition lookup (c : Category) (key : Z) (reg : Registry)
  : LookupResult * Registry :=
  match Py.getitem (table_of c reg) key with
  | Py.Value v => (Found v, reg)
  | Py.KeyError _ => (NotFoundError, reg)
  end.







(** ** Names *)

(** [str.isalnum] and [str.isspace] on one ASCII character. *)
Definition is_alnum (a : ascii) : bool :=
  let n := N_of_ascii a in
  ((48 <=? n) && (n <=? 57) || (65 <=? n) && (n <=? 90)
   || (97 <=? n) && (n <=? 122))%N.

Definition is_space (a : ascii) : bool :=
  let n := N_of_ascii a in
  ((9 <=? n) && (n <=? 13) || (28 <=? n) && (n <=? 32))%N.

Fixpoint all_chars (p : ascii → bool) (s : string) : bool :=
  match s with
  | EmptyString => true
  | String a s' => p a && all_chars p s'
  end.

(** A name usable for a nyan object: not empty, alphanumeric throughout,
    free of whitespace. *)
Definition valid_name (s : string) : Prop :=
  s ≠ "" ∧ all_chars is_alnum s = true
  ∧ all_chars (λ a, negb (is_space a)) s = true.

Definition valid_nameb (s : string) : bool :=
  negb (String.eqb s "") && all_chars is_alnum s
  && all_chars (λ a, negb (is_space a)) s.

(** [str.isupper] and [str.isalpha] on one ASCII character. *)
Definition is_upper (a : ascii) : bool :=
  let n := N_of_ascii a in ((65 <=? n) && (n <=? 90))%N.

Definition is_alpha (a : ascii) : bool :=
  let n := N_of_ascii a in
  ((65 <=? n) && (n <=? 90) || (97 <=? n) && (n <=? 122))%N.

(** A name in the style of the tables: an upper-case letter followed by
    letters only. *)
Definition is_capitalised (s : string) : bool :=
  match s with
  | EmptyString => false
  | String a rest => is_upper a && all_chars is_alpha rest
  end.

(** Every entry of the file, tagged with the table it is written in, in
    source order. *)
Definition all_categories : list Category :=
  [Unit; Building; TransformGroup; VillagerGroup; MonkGroup].

Definition all_items : list (Category * (Z * string)) :=
  c ← all_categories; pair c <$> items_of c.

(** ** Facts about dict displays *)

Section dict_display.
Implicit Types (items : list (Z * string)) (k : Z) (v : string).

Lemma dict_display_nil : Py.dict_display [] = ∅.
Proof. reflexivity. Qed.

Lemma dict_display_snoc items k v :
  Py.dict_display (items ++ [(k, v)]) = <[k := v]> (Py.dict_display items).
Proof. unfold Py.dict_display. by rewrite foldl_snoc. Qed.

(** Every binding of the dict was written as an item. *)
Lemma dict_display_lookup_Some items k v :
  Py.dict_display items !! k = Some v → (k, v) ∈ items.
Proof.
  induction items as [|[k' v'] items IH] using rev_ind; intros Hk.
  - by rewrite dict_display_nil, lookup_empty in Hk.
  - rewrite dict_display_snoc in Hk. rewrite elem_of_app.
    destruct (decide (k' = k)) as [->|Hne].
    + rewrite lookup_insert_eq in Hk. right.
      apply list_elem_of_singleton. congruence.
    + rewrite lookup_insert_ne in Hk by done. left. by apply IH.
Qed.

(** A key is missing from the dict exactly when no item has it. *)
Lemma dict_display_lookup_None items k :
  Py.dict_display items !! k = None ↔ k ∉ items.*1.
Proof.
  induction items as [|[k' v'] items IH] using rev_ind.
  - rewrite dict_display_nil, lookup_empty. split; [|done].
    intros _ H. by apply not_elem_of_nil in H.
  - rewrite dict_display_snoc, fmap_app, not_elem_of_app. simpl.
    destruct (decide (k' = k)) as [->|Hne].
    + rewrite lookup_insert_eq. split; [done|].
      intros [_ H]. destruct H. by apply list_elem_of_singleton.
    + rewrite lookup_insert_ne by done. rewrite IH. split.
      * intros H. split; [done|]. rewrite list_elem_of_singleton. congruence.
      * by intros [H _].
Qed.

(** When the keys of the display are pairwise different, every item is
    a binding of the dict. *)
Lemma dict_display_lookup_item items k v :
  NoDup items.*1 → (k, v) ∈ items → Py.dict_display items !! k = Some v.
Proof.
  induction items as [|[k' v'] items IH] using rev_ind; intros Hnd Hin.
  - by apply not_elem_of_nil in Hin.
  - rewrite fmap_app in Hnd. apply NoDup_app in Hnd as (Hnd & Hfresh & _).
    rewrite dict_display_snoc. apply elem_of_app in Hin as [Hin|Hin].
    + assert (k ≠ k') as Hne.
      { intros ->. apply (Hfresh k').
        - by apply (list_elem_of_fmap_2 fst _ (k', v)).
        - simpl. by apply list_elem_of_singleton. }
      rewrite lookup_insert_ne by done. by apply IH.
    + apply list_elem_of_singleton in Hin. injection Hin as -> ->.
      by rewrite lookup_insert_eq.
Qed.

(** ... and the dict has as many bindings as the display has items. *)
Lemma dict_display_size items :
  NoDup items.*1 → size (Py.dict_display items) = length items.
Proof.
  induction items as [|[k' v'] items IH] using rev_ind; intros Hnd.
  - by rewrite dict_display_nil, map_size_empty.
  - rewrite fmap_app in Hnd. apply NoDup_app in Hnd as (Hnd & Hfresh & _).
    rewrite dict_display_snoc, length_app. simpl.
    rewrite map_size_insert_None.
    + rewrite IH by done. lia.
    + apply dict_display_lookup_None. intros Hin.
      apply (Hfresh k' Hin). simpl. by apply list_elem_of_singleton.
Qed.

(** When moreover the values of the display are pairwise different,
    the dict is injective. *)
Lemma dict_display_inj items k1 k2 v :
  NoDup items.*2 →
  Py.dict_display items !! k1 = Some v →
  Py.dict_display items !! k2 = Some v →
  k1 = k2.
Proof.
  intros Hnd H1%dict_display_lookup_Some H2%dict_display_lookup_Some.
  apply list_elem_of_lookup in H1 as [i1 H1].
  apply list_elem_of_lookup in H2 as [i2 H2].
  assert (i1 = i2) as <-.
  { eapply NoDup_lookup; [exact Hnd| |];
      rewrite list_lookup_fmap; [by rewrite H1|by rewrite H2]. }
  congruence.
Qed.

End dict_display.


(** ** Facts about the five displays, by evaluation *)

Lemma forallb_elem_of {A} (p : A → bool) (l : list A) x :
  forallb p l = true → x ∈ l → p x = true.
Proof.
  intros H Hx. apply list_elem_of_In in Hx.
  by apply (proj1 (forallb_forall p l) H).
Qed.

Lemma valid_nameb_spec s : valid_nameb s = true → valid_name s.
Proof.
  unfold valid_nameb, valid_name.
  rewrite !andb_true_iff, negb_true_iff, String.eqb_neq. tauto.
Qed.

Lemma items_keys_NoDup c : NoDup (items_of c).*1.
Proof. destruct c; apply (bool_decide_unpack _); by vm_compute. Qed.

Lemma items_values_NoDup c : NoDup (items_of c).*2.
Proof. destruct c; apply (bool_decide_unpack _); by vm_compute. Qed.

Lemma items_names_ok c :
  forallb (λ kv, valid_nameb kv.2) (items_of c) = true.
Proof. by destruct c; vm_compute. Qed.

Lemma table_of_module c :
  table_of c internal_nyan_names = Py.dict_display (items_of c).
Proof. by destruct c. Qed.

(** ** The registry *)

Lemma lookup_unfold c key reg :
  lookup c key reg =
    (match table_of c reg !! key with
     | Some v => Found v
     | None => NotFoundError
     end, reg).
Proof. unfold lookup, Py.getitem. by destruct (table_of c reg !! key). Qed.

(** C1: a key written in a category's display is bound in that
    category's table to the string written next to it, and [lookup] on
    the loaded module returns exactly that string. *)
Theorem lookup_present (c : Category) (key : Z) (name : string) :
  (key, name) ∈ items_of c →
  table_of c internal_nyan_names !! key = Some name
  ∧ lookup c key internal_nyan_names = (Found name, internal_nyan_names).
Proof.
  intros Hin.
  assert (table_of c internal_nyan_names !! key = Some name) as Hk.
  { rewrite table_of_module.
    apply dict_display_lookup_item; [apply items_keys_NoDup|done]. }
  split; [done|]. by rewrite lookup_unfold, Hk.
Qed.

(** The two scenarios of C1: [lookup(unit, 4)] is ["Swordsman"] and
    [lookup(building, 82)] is ["Castle"]. *)
Lemma lookup_present_witness :
  ((4, "Swordsman") ∈ items_of Unit
   ∧ (lookup Unit 4 internal_nyan_names).1 = Found "Swordsman")
  ∧ ((82, "Castle") ∈ items_of Building
     ∧ (lookup Building 82 internal_nyan_names).1 = Found "Castle").
Proof.
  assert ((4, "Swordsman") ∈ items_of Unit) as H4
    by (apply (bool_decide_unpack _); by vm_compute).
  assert ((82, "Castle") ∈ items_of Building) as H82
    by (apply (bool_decide_unpack _); by vm_compute).
  split; (split; [done|]).
  - by rewrite (proj2 (lookup_present Unit 4 "Swordsman" H4)).
  - by rewrite (proj2 (lookup_present Building 82 "Castle" H82)).
Defined.

(** C2: for a non-negative key that a category's display does not
    bind, [lookup] on the loaded module yields [NotFoundError], and so
    no string at all. *)
Theorem lookup_absent (c : Category) (key : Z) :
  0 ≤ key →
  key ∉ (items_of c).*1 →
  table_of c internal_nyan_names !! key = None
  ∧ (lookup c key internal_nyan_names).1 = NotFoundError
  ∧ ∀ name, (lookup c key internal_nyan_names).1 ≠ Found name.
Proof.
  intros _ Hnot.
  assert (table_of c internal_nyan_names !! key = None) as Hk.
  { rewrite table_of_module. by apply dict_display_lookup_None. }
  rewrite lookup_unfold, Hk. by repeat split.
Qed.

(** The scenario of C2: [lookup(unit, 9999)] is the not-found signal. *)
Lemma lookup_absent_witness :
  0 ≤ 9999 ∧ (9999 ∉ (items_of Unit).*1)
  ∧ (lookup Unit 9999 internal_nyan_names).1 = NotFoundError.
Proof.
  assert (9999 ∉ (items_of Unit).*1) as Hnot
    by (apply (bool_decide_unpack _); by vm_compute).
  split; [lia|]. split; [done|].
  apply (lookup_absent Unit 9999); [lia|done].
Defined.

(** C3, as the source has it: the unit table has 43 entries (43 items
    are written, and the dict built from them has length 43); the
    building table has 23. *)
Theorem table_sizes :
  length unit_line_items = 43%nat
  ∧ Py.len unit_line_lookups = 43
  ∧ length building_line_items = 23%nat
  ∧ Py.len building_line_lookups = 23.
Proof.
  assert (∀ c, Py.len (table_of c internal_nyan_names)
               = Z.of_nat (length (items_of c))) as Hlen.
  { intros c. unfold Py.len. rewrite table_of_module.
    f_equal. apply dict_display_size, items_keys_NoDup. }
  split; [reflexivity|]. split; [exact (Hlen Unit)|].
  split; [reflexivity|exact (Hlen Building)].
Qed.

(** C3 as stated fails: the unit table does not have 42 entries. *)
Lemma unit_table_size_not_42 :
  ¬ (Py.len unit_line_lookups = 42 ∧ Py.len building_line_lookups = 23).
Proof.
  intros [H _]. unfold Py.len, unit_line_lookups in H.
  rewrite dict_display_size in H by apply (items_keys_NoDup Unit).
  simpl in H. lia.
Qed.

(** C4: in each of the five displays, two entries with the same key are
    one and the same entry (the same position), so a key is written
    with one value only. *)
Theorem keys_unique (c : Category) (i j : nat) (key : Z) (v1 v2 : string) :
  items_of c !! i = Some (key, v1) →
  items_of c !! j = Some (key, v2) →
  i = j ∧ v1 = v2.
Proof.
  intros Hi Hj.
  assert (i = j) as <-.
  { eapply NoDup_lookup; [apply (items_keys_NoDup c)| |];
      rewrite list_lookup_fmap; [by rewrite Hi|by rewrite Hj]. }
  split; [done|congruence].
Qed.

Lemma keys_unique_witness :
  items_of Unit !! 1%nat = Some (4, "Swordsman")
  ∧ (1%nat = 1%nat ∧ "Swordsman" = "Swordsman").
Proof.
  split; [reflexivity|].
  apply (keys_unique Unit 1 1 4 "Swordsman" "Swordsman"); reflexivity.
Defined.

(** C5: every value stored in any of the five tables is a non-empty,
    purely alphanumeric string without whitespace. *)
Theorem values_valid (c : Category) (key : Z) (name : string) :
  table_of c internal_nyan_names !! key = Some name →
  valid_name name.
Proof.
  rewrite table_of_module. intros Hin%dict_display_lookup_Some.
  apply valid_nameb_spec.
  exact (forallb_elem_of _ _ _ (items_names_ok c) Hin).
Qed.

Lemma values_valid_witness :
  table_of MonkGroup internal_nyan_names !! 65 = Some "Monk"
  ∧ valid_name "Monk".
Proof.
  assert (table_of MonkGroup internal_nyan_names !! 65 = Some "Monk") as H
    by (by vm_compute).
  split; [done|]. exact (values_valid MonkGroup 65 "Monk" H).
Defined.








(** C9: key 49 is bound in the unit table and in the building table,
    to different names, so [lookup] depends on its category argument. *)
Theorem key_shared_across_tables :
  unit_line_lookups !! 49 = Some "Ram"
  ∧ building_line_lookups !! 49 = Some "SiegeWorkshop"
  ∧ (lookup Unit 49 internal_nyan_names).1 = Found "Ram"
  ∧ (lookup Building 49 internal_nyan_names).1 = Found "SiegeWorkshop"
  ∧ (lookup Unit 49 internal_nyan_names).1
    ≠ (lookup Building 49 internal_nyan_names).1.
Proof.
  assert ((lookup Unit 49 internal_nyan_names).1 = Found "Ram") as Hu
    by reflexivity.
  assert ((lookup Building 49 internal_nyan_names).1 = Found "SiegeWorkshop")
    as Hb by reflexivity.
  rewrite Hu, Hb.
  split; [reflexivity|]. split; [reflexivity|].
  split; [reflexivity|]. split; [reflexivity|]. discriminate.
Qed.

(** The remaining scenarios of the spec. *)
Example lookup_trebuchet :
  (lookup TransformGroup 116 internal_nyan_names).1 = Found "Trebuchet".
Proof. reflexivity. Qed.

Example lookup_monk :
  (lookup MonkGroup 65 internal_nyan_names).1 = Found "Monk".
Proof. reflexivity. Qed.

Example lookup_villager_in_monk_group :
  (lookup MonkGroup 5 internal_nyan_names).1 = NotFoundError.
Proof. reflexivity. Qed.

(** C10: each of the five tables is injective: two keys bound to the
    same name in one table are the same key. *)
Theorem names_injective (c : Category) (k1 k2 : Z) (name : string) :
  table_of c internal_nyan_names !! k1 = Some name →
  table_of c internal_nyan_names !! k2 = Some name →
  k1 = k2.
Proof.
  rewrite table_of_module.
  apply dict_display_inj, items_values_NoDup.
Qed.

Lemma names_injective_witness :
  table_of Building internal_nyan_names !! 82 = Some "Castle" ∧ 82 = 82.
Proof.
  assert (table_of Building internal_nyan_names !! 82 = Some "Castle") as H
    by (by vm_compute).
  split; [done|]. exact (names_injective Building 82 82 "Castle" H H).
Defined.

(** ** Further facts about the tables *)

Lemma table_lookup_item c key name :
  table_of c internal_nyan_names !! key = Some name →
  (key, name) ∈ items_of c.
Proof. rewrite table_of_module. apply dict_display_lookup_Some. Qed.

Lemma elem_of_all_items c key name :
  (key, name) ∈ items_of c → (c, (key, name)) ∈ all_items.
Proof.
  intros Hin. unfold all_items. apply list_elem_of_bind.
  exists c. split.
  - by apply (list_elem_of_fmap_2 (pair c)).
  - unfold all_categories. clear Hin. destruct c; repeat constructor.
Qed.

Lemma all_names_NoDup : NoDup (all_items.*2.*2).
Proof. apply (bool_decide_unpack _). by vm_compute. Qed.

(** A name bound anywhere in the file is bound once. *)
Lemma name_determines_entry c1 c2 k1 k2 name :
  table_of c1 internal_nyan_names !! k1 = Some name →
  table_of c2 internal_nyan_names !! k2 = Some name →
  c1 = c2 ∧ k1 = k2.
Proof.
  intros H1%table_lookup_item%elem_of_all_items
         H2%table_lookup_item%elem_of_all_items.
  apply list_elem_of_lookup in H1 as [i1 H1].
  apply list_elem_of_lookup in H2 as [i2 H2].
  assert (i1 = i2) as <-.
  { eapply NoDup_lookup; [exact all_names_NoDup| |];
      rewrite !list_lookup_fmap; [by rewrite H1|by rewrite H2]. }
  split; congruence.
Qed.

(** X1: no name is used twice in the whole file: a name bound in a
    table is bound in that table only, and to one key only. *)
Theorem names_unique_across_tables
    (c1 c2 : Category) (k1 k2 : Z) (name : string) :
  table_of c1 internal_nyan_names !! k1 = Some name →
  table_of c2 internal_nyan_names !! k2 = Some name →
  c1 = c2 ∧ k1 = k2.
Proof. apply name_determines_entry. Qed.

Lemma names_unique_across_tables_witness :
  table_of Unit internal_nyan_names !! 49 = Some "Ram"
  ∧ (Unit = Unit ∧ 49 = 49).
Proof.
  assert (table_of Unit internal_nyan_names !! 49 = Some "Ram") as H
    by reflexivity.
  split; [done|].
  exact (names_unique_across_tables Unit Unit 49 49 "Ram" H H).
Defined.






Lemma items_names_capitalised c :
  forallb (λ kv, is_capitalised kv.2) (items_of c) = true.
Proof. by destruct c; vm_compute. Qed.

(** X3: every name in the five tables is an upper-case ASCII letter
    followed by ASCII letters only; no name has a digit, an underscore
    or any other sign. *)
Theorem names_capitalised (c : Category) (key : Z) (name : string) :
  table_of c internal_nyan_names !! key = Some name →
  ∃ a rest, name = String a rest
            ∧ is_upper a = true ∧ all_chars is_alpha rest = true.
Proof.
  intros Hin%table_lookup_item.
  pose proof (forallb_elem_of _ _ _ (items_names_capitalised c) Hin) as Hc.
  simpl in Hc. destruct name as [|a rest]; [done|].
  apply andb_true_iff in Hc. by exists a, rest.
Qed.

Lemma names_capitalised_witness :
  table_of Unit internal_nyan_names !! 51 = Some "ChoKoNu"
  ∧ ∃ a rest, "ChoKoNu" = String a rest
              ∧ is_upper a = true ∧ all_chars is_alpha rest = true.
Proof.
  assert (table_of Unit internal_nyan_names !! 51 = Some "ChoKoNu") as H
    by reflexivity.
  split; [done|]. exact (names_capitalised Unit 51 "ChoKoNu" H).
Defined.

Lemma items_keys_range c :
  forallb (λ kv, (3 <=? kv.1) && (kv.1 <=? 598)) (items_of c) = true.
Proof. by destruct c; vm_compute. Qed.

(** X4: no table binds a key below 3 or above 598; in particular zero
    and the negative integers are bound nowhere, and subscripting any of
    the five dicts with such a key raises [KeyError]. *)
Theorem subscript_out_of_range (c : Category) (key : Z) :
  key < 3 ∨ 598 < key →
  Py.getitem (table_of c internal_nyan_names) key = Py.KeyError key.
Proof.
  intros Hout. unfold Py.getitem.
  destruct (table_of c internal_nyan_names !! key) as [name|] eqn:Hk;
    [|done].
  apply table_lookup_item in Hk.
  pose proof (forallb_elem_of _ _ _ (items_keys_range c) Hk) as Hr.
  simpl in Hr. lia.
Qed.

Lemma subscript_out_of_range_witness :
  (0 < 3 ∨ 598 < 0)
  ∧ Py.getitem (table_of Building internal_nyan_names) 0 = Py.KeyError 0.
Proof.
  assert (0 < 3 ∨ 598 < 0) as H by (left; lia).
  split; [done|]. exact (subscript_out_of_range Building 0 H).
Defined.

Lemma StronglySorted_lookup_lt (l : list Z) (i j : nat) (x y : Z) :
  StronglySorted Z.lt l →
  (i < j)%nat → l !! i = Some x → l !! j = Some y → x < y.
Proof.
  intros Hs. revert i j.
  induction Hs as [|a l Hs IH Hall]; intros i j Hlt Hi Hj; [done|].
  destruct j as [|j]; [lia|]. destruct i as [|i]; simpl in *.
  - injection Hi as ->.
    apply (proj1 (Forall_forall _ _) Hall).
    by apply list_elem_of_lookup_2 with j.
  - apply (IH i j); [lia|done..].
Qed.

Lemma items_keys_sorted c : StronglySorted Z.lt (items_of c).*1.
Proof. destruct c; apply (bool_decide_unpack _); by vm_compute. Qed.

(** X5: each display is written in strictly ascending order of its
    keys: of two entries of a table, the one written first has the
    smaller key. *)
Theorem items_ascending
    (c : Category) (i j : nat) (k1 k2 : Z) (v1 v2 : string) :
  (i < j)%nat →
  items_of c !! i = Some (k1, v1) →
  items_of c !! j = Some (k2, v2) →
  k1 < k2.
Proof.
  intros Hlt Hi Hj.
  apply (StronglySorted_lookup_lt (items_of c).*1 i j);
    [apply items_keys_sorted|done|..];
    rewrite list_lookup_fmap; [by rewrite Hi|by rewrite Hj].
Qed.

Lemma items_ascending_witness :
  (24 < 25)%nat
  ∧ items_of Unit !! 24%nat = Some (64, "Mangonel")
  ∧ items_of Unit !! 25%nat = Some (66, "Missionary")
  ∧ 64 < 66.
Proof.
  split; [lia|]. split; [reflexivity|]. split; [reflexivity|].
  apply (items_ascending Unit 24 25 64 66 "Mangonel" "Missionary");
    [lia|reflexivity..].
Defined.
